(** * Django-AI-Agent: the [Document] model and its two read tools

    A shallow embedding of [src/documents/models.py] (the [Document] model
    and its [save] override) and of [src/AI/tools.py] ([list_documents] and
    [get_document]), with the part of the ORM they call: a table keyed by
    primary key, [objects.filter], [objects.get] and [Model.save]. *)

From stdpp Require Import gmap strings list fin_maps.

Open Scope Z_scope.
Open Scope string_scope.

(** ** Data model *)

(** A [DateTimeField] value: an instant, in microseconds since the epoch. *)
Definition datetime : Type := Z.

(** [class Document(models.Model)].  [id] is the automatic primary key:
    [None] on an instance that was never saved.  [owner] is the foreign key
    (the user's primary key).  The nullable columns are options. *)
Record Document : Type := mkDocument {
  id : option Z;
  owner : Z;
  title : string;
  content : option string;
  active : bool;
  active_at : option datetime;
  created_at : option datetime;
  updated_at : option datetime
}.

(** Attribute assignments [self.f = v]. *)
Definition set_id (self : Document) (v : option Z) : Document :=
  mkDocument v (owner self) (title self) (content self) (active self)
             (active_at self) (created_at self) (updated_at self).

Definition set_active_at (self : Document) (v : option datetime) : Document :=
  mkDocument (id self) (owner self) (title self) (content self) (active self)
             v (created_at self) (updated_at self).

Definition set_created_at (self : Document) (v : option datetime) : Document :=
  mkDocument (id self) (owner self) (title self) (content self) (active self)
             (active_at self) v (updated_at self).

Definition set_updated_at (self : Document) (v : option datetime) : Document :=
  mkDocument (id self) (owner self) (title self) (content self) (active self)
             (active_at self) (created_at self) v.

(** [Document.__str__] *)
Definition __str__ (self : Document) : string := title self.

(** The values the tools put in their result dicts. *)
Inductive value : Type :=
  | VNone
  | VInt (n : Z)
  | VStr (s : string).

(** A Python dict with string keys. *)
Abbreviation dict := (gmap string value).

(** [obj.id] as a Python value. *)
Definition py_id (o : Document) : value :=
  match id o with
  | Some k => VInt k
  | None => VNone
  end.

(** ** The world: the documents table and the clock *)

(** The table of [Document] rows, keyed by primary key, and the number of
    clock readings taken so far. *)
Record World : Type := mkWorld {
  objects : gmap Z Document;
  ticks : nat
}.

(** The exceptions [objects.get] raises. *)
Inductive exn : Type :=
  | DoesNotExist
  | MultipleObjectsReturned.

Inductive outcome (A : Type) : Type :=
  | Return (a : A)
  | Raise (e : exn).
Arguments Return {A} a.
Arguments Raise {A} e.

(** Computations over the world that return or raise. *)
Definition M (A : Type) : Type := World → outcome A * World.

#[export] Instance M_ret : MRet M := λ A a w, (Return a, w).

#[export] Instance M_bind : MBind M := λ A B f m w,
  match m w with
  | (Return a, w') => f a w'
  | (Raise e, w') => (Raise e, w')
  end.

Definition raise {A : Type} (e : exn) : M A := λ w, (Raise e, w).

(** [try: body except ...: handler]; the handler re-raises what it does not
    catch. *)
Definition try_except {A : Type} (body : M A) (handler : exn → M A) : M A :=
  λ w, match body w with
       | (Raise e, w') => handler e w'
       | r => r
       end.

(** ** The ORM operations the repository calls *)

(** The model instance built from the row stored under key [k]. *)
Definition from_db (k : Z) (row : Document) : Document := set_id row (Some k).

(** All rows of a table as instances, in the store's own order. *)
Definition instances (t : gmap Z Document) : list Document :=
  (λ kd, from_db kd.1 kd.2) <$> map_to_list t.

(** [Document.objects.filter(...)], evaluated: the instances that satisfy
    the lookup. *)
Definition objects_filter (P : Document → Prop) `{!∀ o, Decision (P o)}
  : M (list Document) :=
  λ w, (Return (filter P (instances (objects w))), w).

(** [Document.objects.get(...)]: the one instance that satisfies the
    lookup. *)
Definition objects_get (P : Document → Prop) `{!∀ o, Decision (P o)}
  : M Document :=
  qs ← objects_filter P;
  match qs with
  | [] => raise DoesNotExist
  | [obj] => mret obj
  | _ => raise MultipleObjectsReturned
  end.

(** The table as it stands, and the write of one row. *)
Definition table : M (gmap Z Document) := λ w, (Return (objects w), w).

Definition write_row (k : Z) (row : Document) : M unit :=
  λ w, (Return (), mkWorld (<[k := row]> (objects w)) (ticks w)).

(** The key an insert without a primary key gets: one past the largest. *)
Definition next_pk (t : gmap Z Document) : Z :=
  1 + foldr Z.max 0 ((map_to_list t).*1).

Section Clock.

(** The successive readings of the clock. *)
Variable clock : nat → datetime.

(** [timezone.now()] *)
Definition timezone_now : M datetime :=
  λ w, (Return (clock (ticks w)), mkWorld (objects w) (S (ticks w))).

(** [models.Model.save]: the row is written under the instance's key, a
    fresh one when it has none; [created_at] ([auto_now_add]) is set when
    the row is inserted, [updated_at] ([auto_now]) on every save. *)
Definition Model_save (self : Document) : M Document :=
  now ← timezone_now;
  t ← table;
  let k := default (next_pk t) (id self) in
  let adding := bool_decide (t !! k = None) in
  let self1 := set_id self (Some k) in
  let self2 := if adding then set_created_at self1 (Some now) else self1 in
  let self3 := set_updated_at self2 (Some now) in
  write_row k self3;;
  mret self3.

(** The body of [Document.save] before [super().save()]. *)
Definition activation (self : Document) : M Document :=
  if active self && bool_decide (active_at self = None) then
    now ← timezone_now;
    mret (set_active_at self (Some now))
  else if negb (active self) then
    mret (set_active_at self None)
  else
    mret self.

(** [Document.save]; the result is [self] as the call leaves it. *)
Definition save (self : Document) : M Document :=
  self' ← activation self;
  Model_save self'.

End Clock.

(** ** [AI/tools.py] *)

Definition list_documents : M (list dict) :=
  qs ← objects_filter (λ o, active o = true);
  mret (foldl (λ (response_data : list dict) obj,
                 (response_data ++
                  [ {[ "id" := py_id obj; "title" := VStr (title obj) ]} ])%list)
              [] qs).

Definition get_document (document_id : Z) : M dict :=
  try_except
    (obj ← objects_get (λ o, id o = Some document_id ∧ active o = true);
     mret ({[ "id" := py_id obj; "title" := VStr (title obj) ]} : dict))
    (λ e, match e with
          | DoesNotExist => mret ({[ "error" := VStr "Document not found." ]} : dict)
          | _ => raise e
          end).

(** ** Definitions used by the statements *)

(** The dict both tools build for a matched instance. *)
Definition entry (o : Document) : dict :=
  {[ "id" := py_id o; "title" := VStr (title o) ]}.

(** The dict [get_document] returns when nothing matches. *)
Definition not_found : dict := {[ "error" := VStr "Document not found." ]}.

(** The store holds an active document under key [k]. *)
Definition holds_active (w : World) (k : Z) : Prop :=
  ∃ row, objects w !! k = Some row ∧ active row = true.

(** [self.active = v] *)
Definition set_active (self : Document) (v : bool) : Document :=
  mkDocument (id self) (owner self) (title self) (content self) v
             (active_at self) (created_at self) (updated_at self).

(** ** Sample data *)

(** A clock that starts at 1000 and advances by one at each reading. *)
Definition sample_clock (n : nat) : datetime := 1000 + Z.of_nat n.

(** The store before anything is saved. *)
Definition empty_world : World := mkWorld ∅ 0.

(** A new document, [Document(owner=1, title="Report")], not yet saved. *)
Definition report : Document :=
  mkDocument None 1 "Report" None true None None None.

(** The same document once saved with [sample_clock] in [empty_world]. *)
Definition stored_report : Document :=
  mkDocument (Some 1) 1 "Report" None true (Some 1000) (Some 1001) (Some 1001).

(** An inactive document that still carries an activation time. *)
Definition draft : Document :=
  mkDocument (Some 2) 1 "Draft" (Some "notes") false (Some 500) (Some 400) (Some 500).

(** A store with one active and one inactive document. *)
Definition sample_world : World :=
  mkWorld {[ 1 := stored_report; 2 := draft ]} 2.

(** ** New instances, the activation invariant and histories of saves *)

(** [Document(owner=owner, title=title)]: the fields that are not given take
    the defaults the model declares ([active] is true, the nullable fields
    are null), and the instance has no key until it is saved. *)
Definition Document_init (owner : Z) (title : string) : Document :=
  mkDocument None owner title None true None None None.

(** The activation invariant on one row: [active_at] is set exactly when
    [active] is true. *)
Definition activation_ok (row : Document) : Prop :=
  is_Some (active_at row) ↔ active row = true.

#[export] Instance activation_ok_dec (row : Document) : Decision (activation_ok row).
Proof. unfold activation_ok. apply _. Defined.

(** The activation invariant on every row of the table. *)
Definition store_ok (w : World) : Prop :=
  map_Forall (λ _ row, activation_ok row) (objects w).

#[export] Instance store_ok_dec (w : World) : Decision (store_ok w).
Proof. unfold store_ok. apply _. Defined.

(** The worlds reached from an empty table by saves alone. *)
Inductive reachable (clock : nat → datetime) : World → Prop :=
  | reachable_empty (n : nat) : reachable clock (mkWorld ∅ n)
  | reachable_save (self self' : Document) (w w' : World) :
      reachable clock w →
      save clock self w = (Return self', w') →
      reachable clock w'.

(** A clock that never runs backwards. *)
Definition monotone (clock : nat → datetime) : Prop :=
  ∀ m n : nat, (m ≤ n)%nat → (clock m ≤ clock n)%Z.

(** A store whose only row is [stored_report]. *)
Definition report_world : World := mkWorld {[ 1 := stored_report ]} 2.

(** ** Running computations *)

Lemma result_eq {A : Type} (a b : A) (w w' : World) :
  (Return a, w) = (Return b, w') → a = b ∧ w = w'.
Proof. intros Heq. by injection Heq. Qed.

(** ** The result entries *)

Lemma entry_id (o : Document) : entry o !! "id" = Some (py_id o).
Proof. unfold entry. by rewrite lookup_insert_eq. Qed.

Lemma entry_title (o : Document) : entry o !! "title" = Some (VStr (title o)).
Proof. unfold entry. rewrite lookup_insert_ne by done. by rewrite lookup_singleton_eq. Qed.

Lemma entry_error (o : Document) : entry o !! "error" = None.
Proof.
  unfold entry. rewrite lookup_insert_ne by done. by rewrite lookup_singleton_ne.
Qed.

Lemma entry_dom (o : Document) : dom (entry o) = ({[ "id"; "title" ]} : gset string).
Proof. unfold entry. rewrite dom_insert_L, dom_singleton_L. done. Qed.

Lemma not_found_error : not_found !! "error" = Some (VStr "Document not found.").
Proof. unfold not_found. by rewrite lookup_singleton_eq. Qed.

Lemma not_found_dom : dom not_found = ({[ "error" ]} : gset string).
Proof. unfold not_found. by rewrite dom_singleton_L. Qed.

Lemma entry_not_found (o : Document) : entry o ≠ not_found.
Proof.
  intros Heq. pose proof (entry_error o) as He.
  rewrite Heq, not_found_error in He. discriminate.
Qed.

Lemma entry_from_db (k : Z) (row : Document) :
  entry (from_db k row) = {[ "id" := VInt k; "title" := VStr (title row) ]}.
Proof. done. Qed.

(** The loop of [list_documents] builds the list of entries, in order. *)
Lemma append_loop (qs : list Document) (out : list dict) :
  foldl (λ (response_data : list dict) obj,
           (response_data ++
            [ {[ "id" := py_id obj; "title" := VStr (title obj) ]} ])%list)
        out qs
  = (out ++ (entry <$> qs))%list.
Proof.
  revert out. induction qs as [|o qs IH]; intros out; simpl.
  - by rewrite app_nil_r.
  - rewrite IH. by rewrite <- app_assoc.
Qed.

(** ** Rows and instances *)

Lemma elem_of_instances (t : gmap Z Document) (o : Document) :
  o ∈ instances t ↔ ∃ k row, t !! k = Some row ∧ o = from_db k row.
Proof.
  unfold instances. rewrite list_elem_of_fmap. split.
  - intros [[k row] [-> Hin]]. apply elem_of_map_to_list in Hin. eauto.
  - intros (k & row & Hk & ->). exists (k, row). split; [done|].
    by apply elem_of_map_to_list.
Qed.

(** A lookup on the primary key matches at most the row stored under it. *)
Lemma filter_pk_rows (l : list (Z * Document)) (k : Z) :
  NoDup (l.*1) →
  filter (λ o, id o = Some k ∧ active o = true)
         ((λ kd, from_db kd.1 kd.2) <$> l)
  = match (list_to_map l : gmap Z Document) !! k with
    | Some row => if active row then [from_db k row] else []
    | None => []
    end.
Proof.
  induction l as [|[k' row] l IH]; intros Hnd; [done|].
  apply NoDup_cons in Hnd as [Hk' Hnd]. specialize (IH Hnd).
  rewrite fmap_cons, filter_cons. simpl in *.
  destruct (decide (k' = k)) as [->|Hne].
  - rewrite lookup_insert_eq.
    apply not_elem_of_list_to_map_1 in Hk'. rewrite Hk' in IH. rewrite IH.
    destruct (active row) eqn:Hact; destruct (decide _) as [[_ HP]|HP];
      simpl in HP; try done; try congruence.
    destruct HP. by split.
  - rewrite lookup_insert_ne by done. rewrite <- IH.
    destruct (decide _) as [[HP _]|_]; [|done]. simpl in HP. congruence.
Qed.

Lemma filter_pk (t : gmap Z Document) (k : Z) :
  filter (λ o, id o = Some k ∧ active o = true) (instances t)
  = match t !! k with
    | Some row => if active row then [from_db k row] else []
    | None => []
    end.
Proof.
  unfold instances. rewrite filter_pk_rows by apply NoDup_fst_map_to_list.
  by rewrite list_to_map_to_list.
Qed.

(** The entries of distinct rows carry distinct ids. *)
Lemma entries_NoDup_rows (P : Document → Prop) `{!∀ o, Decision (P o)}
    (l : list (Z * Document)) :
  NoDup (l.*1) →
  NoDup ((λ r : dict, r !! "id") <$>
         (entry <$> filter P ((λ kd, from_db kd.1 kd.2) <$> l))).
Proof.
  induction l as [|[k row] l IH]; intros Hnd; [constructor|].
  apply NoDup_cons in Hnd as [Hk Hnd]. specialize (IH Hnd).
  rewrite fmap_cons, filter_cons. simpl. case_decide; [|done].
  rewrite !fmap_cons. apply NoDup_cons. split; [|done].
  rewrite entry_id. intros Hin.
  apply list_elem_of_fmap in Hin as (r & Hr & Hin).
  apply list_elem_of_fmap in Hin as (o & -> & Hin).
  apply list_elem_of_filter in Hin as [_ Hin].
  apply list_elem_of_fmap in Hin as ([k' row'] & -> & Hin).
  rewrite entry_id in Hr. simpl in Hr. injection Hr as <-.
  apply Hk. apply list_elem_of_fmap. by exists (k, row').
Qed.

(** ** What the two tools compute *)

Lemma list_documents_eq (w : World) :
  list_documents w
  = (Return (entry <$> filter (λ o, active o = true) (instances (objects w))), w).
Proof.
  unfold list_documents, objects_filter, mbind, M_bind, mret, M_ret.
  by rewrite append_loop.
Qed.

Lemma objects_get_pk (k : Z) (w : World) :
  objects_get (λ o, id o = Some k ∧ active o = true) w
  = match objects w !! k with
    | Some row => if active row then (Return (from_db k row), w)
                  else (Raise DoesNotExist, w)
    | None => (Raise DoesNotExist, w)
    end.
Proof.
  unfold objects_get, objects_filter, mbind, M_bind. rewrite filter_pk.
  destruct (objects w !! k) as [row|]; [|done]. by destruct (active row).
Qed.

Lemma get_document_eq (k : Z) (w : World) :
  get_document k w
  = (Return match objects w !! k with
            | Some row => if active row then entry (from_db k row) else not_found
            | None => not_found
            end, w).
Proof.
  unfold get_document, try_except, mbind, M_bind. rewrite objects_get_pk.
  destruct (objects w !! k) as [row|]; [|done]. by destruct (active row).
Qed.

(** The entries of the active rows. *)
Lemma elem_of_active_entries (w : World) (r : dict) :
  r ∈ entry <$> filter (λ o, active o = true) (instances (objects w)) ↔
  ∃ k row, objects w !! k = Some row ∧ active row = true ∧
           r = {[ "id" := VInt k; "title" := VStr (title row) ]}.
Proof.
  rewrite list_elem_of_fmap. split.
  - intros (o & -> & Ho). apply list_elem_of_filter in Ho as [Hact Ho].
    apply elem_of_instances in Ho as (k & row & Hk & ->).
    exists k, row. by rewrite entry_from_db.
  - intros (k & row & Hk & Hact & ->). exists (from_db k row).
    split; [by rewrite entry_from_db|].
    apply list_elem_of_filter. split; [done|].
    apply elem_of_instances. eauto.
Qed.

(** C3: [list_documents()] returns one [{id, title}] entry for each document
    whose [active] flag is true and nothing else: an entry is in the result
    exactly when it is the projection of an active document, no entry carries
    the id of an inactive document, every active document has its entry, and
    no two entries share an id. *)
Theorem list_documents_exactly_active (w : World) :
  ∃ l : list dict,
    list_documents w = (Return l, w) ∧
    (∀ r : dict, r ∈ l ↔
       ∃ k row, objects w !! k = Some row ∧ active row = true ∧
                r = {[ "id" := VInt k; "title" := VStr (title row) ]}) ∧
    (∀ k row, objects w !! k = Some row → active row = false →
       ∀ r : dict, r ∈ l → r !! "id" ≠ Some (VInt k)) ∧
    (∀ k row, objects w !! k = Some row → active row = true →
       ({[ "id" := VInt k; "title" := VStr (title row) ]} : dict) ∈ l) ∧
    NoDup ((λ r : dict, r !! "id") <$> l).
Proof.
  eexists. split; [apply list_documents_eq|].
  pose proof (elem_of_active_entries w) as Hmem.
  split; [exact Hmem|]. split; [|split].
  - intros k row Hk Hact r Hr Hid.
    apply Hmem in Hr as (k' & row' & Hk' & Hact' & ->).
    rewrite lookup_insert_eq in Hid. injection Hid as ->. congruence.
  - intros k row Hk Hact. apply Hmem. eauto.
  - unfold instances. apply entries_NoDup_rows, NoDup_fst_map_to_list.
Qed.

(** C4: when the store holds an active document under [document_id],
    [get_document(document_id)] returns the dict whose [id] is that key and
    whose [title] is that document's title. *)
Theorem get_document_active (w : World) (document_id : Z) (row : Document) :
  objects w !! document_id = Some row →
  active row = true →
  get_document document_id w
  = (Return {[ "id" := VInt document_id; "title" := VStr (title row) ]}, w).
Proof.
  intros Hk Hact. by rewrite get_document_eq, Hk, Hact.
Qed.

(** C5: [get_document(document_id)] always returns a value, never raises;
    the value is [{error: "Document not found."}] exactly when the store
    holds no active document under [document_id], which covers the key that
    is absent and the key of an inactive document. *)
Theorem get_document_not_found_iff (w : World) (document_id : Z) :
  (∃ r : dict, get_document document_id w = (Return r, w)) ∧
  (get_document document_id w
     = (Return {[ "error" := VStr "Document not found." ]}, w)
   ↔ ¬ ∃ row, objects w !! document_id = Some row ∧ active row = true) ∧
  (objects w !! document_id = None →
   get_document document_id w
     = (Return {[ "error" := VStr "Document not found." ]}, w)) ∧
  (∀ row, objects w !! document_id = Some row → active row = false →
   get_document document_id w
     = (Return {[ "error" := VStr "Document not found." ]}, w)).
Proof.
  rewrite get_document_eq. split; [eauto|]. split; [|split].
  - destruct (objects w !! document_id) as [row|] eqn:Hk.
    + destruct (active row) eqn:Hact.
      * split.
        -- intros Heq. apply result_eq in Heq as [Heq _].
           by apply entry_not_found in Heq.
        -- intros Hno. destruct Hno. eauto.
      * split; [|done]. intros _ (row' & Hrow' & Hact'). congruence.
    + split; [|done]. intros _ (row' & Hrow' & _). congruence.
  - by intros ->.
  - intros row -> ->. done.
Qed.

(** C6: [list_documents()] has no error condition: in every store state it
    returns a list, and the list is empty exactly when the store holds no
    active document. *)
Theorem list_documents_no_error (w : World) :
  ∃ l : list dict,
    list_documents w = (Return l, w) ∧
    (l = [] ↔ ∀ k, ¬ holds_active w k).
Proof.
  eexists. split; [apply list_documents_eq|].
  pose proof (elem_of_active_entries w) as Hmem.
  destruct (entry <$> filter _ (instances (objects w))) as [|r l'].
  - split; [|done]. intros _ k (row & Hk & Hact).
    eapply not_elem_of_nil, Hmem. eauto.
  - split; [done|]. intros Hno.
    destruct (proj1 (Hmem r)) as (k & row & Hk & Hact & _); [left|].
    destruct (Hno k). by exists row.
Qed.

(** C8: both tools are read-only: whatever the store and the argument, the
    world after the call is the world before it. *)
Theorem tools_read_only (w : World) :
  (list_documents w).2 = w ∧
  ∀ document_id : Z, (get_document document_id w).2 = w.
Proof.
  split.
  - by rewrite list_documents_eq.
  - intros document_id. by rewrite get_document_eq.
Qed.

(** C10: the two results of [get_document] have disjoint shapes: a found
    document gives a dict with exactly the keys [id] and [title], a missing
    one a dict with exactly the key [error]; so the result has the key
    [error] exactly when no active document was found. *)
Theorem get_document_shapes (w : World) (document_id : Z) :
  ∃ r : dict,
    get_document document_id w = (Return r, w) ∧
    ((holds_active w document_id ∧
      dom r = ({[ "id"; "title" ]} : gset string) ∧ r !! "error" = None)
     ∨ (¬ holds_active w document_id ∧
        dom r = ({[ "error" ]} : gset string))) ∧
    (is_Some (r !! "error") ↔ ¬ holds_active w document_id).
Proof.
  eexists. split; [apply get_document_eq|].
  unfold holds_active.
  destruct (objects w !! document_id) as [row|] eqn:Hk.
  - destruct (active row) eqn:Hact.
    + split.
      * left. split; [eauto|]. by rewrite entry_dom, entry_error.
      * rewrite entry_error. split; [by intros [? ?]|].
        intros Hno. destruct Hno. eauto.
    + assert (Hno : ¬ ∃ row0, Some row = Some row0 ∧ active row0 = true).
      { intros (row' & Hrow' & Hact'). congruence. }
      split.
      * right. split; [done|]. apply not_found_dom.
      * rewrite not_found_error. split; [done|]. intros _. by eexists.
  - assert (Hno : ¬ ∃ row0, @None Document = Some row0 ∧ active row0 = true).
    { intros (row' & Hrow' & _). congruence. }
    split.
    + right. split; [done|]. apply not_found_dom.
    + rewrite not_found_error. split; [done|]. intros _. by eexists.
Qed.

(** ** What [save] computes *)

Section Save.

Variable clock : nat → datetime.

(** The three branches of the body of [save]. *)
Lemma activation_eq (self : Document) (w : World) :
  activation clock self w
  = if active self then
      match active_at self with
      | None => (Return (set_active_at self (Some (clock (ticks w)))),
                 mkWorld (objects w) (S (ticks w)))
      | Some _ => (Return self, w)
      end
    else (Return (set_active_at self None), w).
Proof.
  unfold activation. destruct (active self); [|done].
  by destruct (active_at self).
Qed.

(** [Model.save] writes the instance it returns and leaves the activation
    fields as it finds them. *)
Lemma Model_save_spec (self : Document) (w : World) :
  ∃ self' k,
    Model_save clock self w
    = (Return self', mkWorld (<[k := self']> (objects w)) (S (ticks w))) ∧
    id self' = Some k ∧
    (∀ j, id self = Some j → k = j) ∧
    title self' = title self ∧
    active self' = active self ∧
    active_at self' = active_at self.
Proof.
  unfold Model_save, mbind, M_bind, timezone_now, table, write_row, mret, M_ret.
  simpl. eexists _, _. split; [reflexivity|]. simpl.
  repeat split; try (by case_bool_decide).
  intros j ->. done.
Qed.

(** [save] as a whole: it returns, and the instance it returns is the row
    it wrote. *)
Lemma save_spec (self : Document) (w : World) :
  ∃ self' w' k,
    save clock self w = (Return self', w') ∧
    id self' = Some k ∧
    (∀ j, id self = Some j → k = j) ∧
    objects w' = <[k := self']> (objects w) ∧
    title self' = title self ∧
    active self' = active self ∧
    active_at self'
    = if active self
      then Some (default (clock (ticks w)) (active_at self))
      else None.
Proof.
  unfold save, mbind, M_bind. rewrite activation_eq.
  destruct (active self) eqn:Hact; [destruct (active_at self) eqn:Hat|].
  - destruct (Model_save_spec self w)
      as (self' & k & -> & Hid & Hk & Htitle & Hact' & Hat').
    eexists self', _, k. split; [reflexivity|]. simpl in *.
    repeat split; try done; congruence.
  - destruct (Model_save_spec
                (set_active_at self (Some (clock (ticks w))))
                (mkWorld (objects w) (S (ticks w))))
      as (self' & k & -> & Hid & Hk & Htitle & Hact' & Hat').
    eexists self', _, k. split; [reflexivity|]. simpl in *.
    repeat split; try done; congruence.
  - destruct (Model_save_spec (set_active_at self None) w)
      as (self' & k & -> & Hid & Hk & Htitle & Hact' & Hat').
    eexists self', _, k. split; [reflexivity|]. simpl in *.
    repeat split; try done; congruence.
Qed.

(** C1: saving a document whose [active] flag is true sets [active_at] to
    the current reading of the clock when it was unset and leaves it as it
    was when it was set; the row written carries that value, and saving
    the result again does not change it. *)
Theorem save_records_first_activation (self : Document) (w : World) :
  active self = true →
  ∃ self' w' k,
    save clock self w = (Return self', w') ∧
    objects w' !! k = Some self' ∧
    (active_at self = None → active_at self' = Some (clock (ticks w))) ∧
    (∀ t, active_at self = Some t → active_at self' = Some t) ∧
    (∀ w2, ∃ self'' w3,
       save clock self' w2 = (Return self'', w3) ∧
       active_at self'' = active_at self').
Proof.
  intros Hact.
  destruct (save_spec self w)
    as (self' & w' & k & Hsave & Hid & _ & Hobj & _ & Hact' & Hat').
  exists self', w', k. rewrite Hact in Hat', Hact'.
  split; [done|]. split; [by rewrite Hobj, lookup_insert_eq|].
  split; [by intros Hnone; rewrite Hat', Hnone|].
  split; [by intros t Hsome; rewrite Hat', Hsome|].
  intros w2.
  destruct (save_spec self' w2)
    as (self'' & w3 & k2 & Hsave2 & _ & _ & _ & _ & _ & Hat'').
  exists self'', w3. split; [done|].
  by rewrite Hat'', Hact', Hat'.
Qed.

(** C2: saving a document whose [active] flag is false clears [active_at],
    whatever it held; the row written has it unset. *)
Theorem save_inactive_clears (self : Document) (w : World) :
  active self = false →
  ∃ self' w' k,
    save clock self w = (Return self', w') ∧
    objects w' !! k = Some self' ∧
    active_at self' = None.
Proof.
  intros Hact.
  destruct (save_spec self w)
    as (self' & w' & k & Hsave & Hid & _ & Hobj & _ & Hact' & Hat').
  exists self', w', k. rewrite Hact in Hat'.
  split; [done|]. split; [by rewrite Hobj, lookup_insert_eq|done].
Qed.

(** C7: after every save, whatever the fields were before, [active_at] is
    set exactly when [active] is true, on the instance and on the row
    written. *)
Theorem save_establishes_invariant (self : Document) (w : World) :
  ∃ self' w' k,
    save clock self w = (Return self', w') ∧
    objects w' !! k = Some self' ∧
    active self' = active self ∧
    (is_Some (active_at self') ↔ active self' = true).
Proof.
  destruct (save_spec self w)
    as (self' & w' & k & Hsave & Hid & _ & Hobj & _ & Hact' & Hat').
  exists self', w', k.
  split; [done|]. split; [by rewrite Hobj, lookup_insert_eq|].
  split; [done|]. rewrite Hat', Hact'.
  destruct (active self); split; done.
Qed.

(** C9: the adjustment of [active_at] that [save] makes is idempotent:
    made a second time right after the first, it changes neither the
    document nor the world. *)
Theorem activation_idempotent (self : Document) (w : World) :
  (self' ← activation clock self; activation clock self') w
  = activation clock self w.
Proof.
  unfold mbind, M_bind. rewrite activation_eq.
  destruct (active self) eqn:Hact; [destruct (active_at self) eqn:Hat|];
    rewrite activation_eq; simpl; rewrite ?Hact, ?Hat; done.
Qed.

End Save.

(** ** The statements at the sample data *)

Lemma get_document_active_witness :
  objects sample_world !! 1 = Some stored_report ∧
  active stored_report = true ∧
  get_document 1 sample_world
  = (Return {[ "id" := VInt 1; "title" := VStr "Report" ]}, sample_world).
Proof.
  split; [reflexivity|]. split; [reflexivity|].
  apply (get_document_active sample_world 1 stored_report); reflexivity.
Defined.

Lemma save_records_first_activation_witness :
  active report = true ∧
  ∃ self' w' k,
    save sample_clock report empty_world = (Return self', w') ∧
    objects w' !! k = Some self' ∧
    (active_at report = None →
     active_at self' = Some (sample_clock (ticks empty_world))) ∧
    (∀ t, active_at report = Some t → active_at self' = Some t) ∧
    (∀ w2, ∃ self'' w3,
       save sample_clock self' w2 = (Return self'', w3) ∧
       active_at self'' = active_at self').
Proof.
  split; [reflexivity|].
  apply (save_records_first_activation sample_clock report empty_world).
  reflexivity.
Defined.

Lemma save_inactive_clears_witness :
  active draft = false ∧
  ∃ self' w' k,
    save sample_clock draft sample_world = (Return self', w') ∧
    objects w' !! k = Some self' ∧
    active_at self' = None.
Proof.
  split; [reflexivity|].
  apply (save_inactive_clears sample_clock draft sample_world).
  reflexivity.
Defined.

(** The scenario of the specification: a new document is saved, listed,
    deactivated and saved again, and then no longer found. *)
Example scenario :
  ∃ w1 a w2,
    save sample_clock report empty_world = (Return stored_report, w1) ∧
    active_at stored_report = Some 1000 ∧
    list_documents w1
    = (Return [ {[ "id" := VInt 1; "title" := VStr "Report" ]} ], w1) ∧
    save sample_clock (set_active stored_report false) w1 = (Return a, w2) ∧
    active_at a = None ∧
    get_document 1 w2
    = (Return {[ "error" := VStr "Document not found." ]}, w2).
Proof.
  eexists _, _, _. split; [vm_compute; reflexivity|].
  split; [reflexivity|]. split; [vm_compute; reflexivity|].
  split; [vm_compute; reflexivity|]. split; [reflexivity|].
  vm_compute; reflexivity.
Qed.

(** In [sample_world] the inactive draft is neither listed nor found, and
    saving it clears the activation time it carried. *)
Example sample_world_tools :
  list_documents sample_world
  = (Return [ {[ "id" := VInt 1; "title" := VStr "Report" ]} ], sample_world) ∧
  get_document 2 sample_world
  = (Return {[ "error" := VStr "Document not found." ]}, sample_world) ∧
  get_document 3 sample_world
  = (Return {[ "error" := VStr "Document not found." ]}, sample_world) ∧
  (save sample_clock draft sample_world).1
  = Return (mkDocument (Some 2) 1 "Draft" (Some "notes") false None
                       (Some 400) (Some 1002)).
Proof. repeat split; vm_compute; reflexivity. Qed.

(** ** [save] in full *)

(** The key [next_pk] gives is not in the table. *)
Lemma next_pk_fresh (t : gmap Z Document) : t !! next_pk t = None.
Proof.
  destruct (t !! next_pk t) as [row|] eqn:Hk; [|done]. exfalso.
  apply elem_of_map_to_list in Hk.
  assert (Hin : next_pk t ∈ (map_to_list t).*1).
  { apply list_elem_of_fmap. by exists (next_pk t, row). }
  assert (Hmax : ∀ (ks : list Z) (k : Z), k ∈ ks → (k ≤ foldr Z.max 0 ks)%Z).
  { induction ks as [|k' ks IH]; intros k Hk'; [by apply elem_of_nil in Hk'|].
    apply elem_of_cons in Hk' as [->|Hk']; simpl; [lia|].
    specialize (IH k Hk'). lia. }
  apply Hmax in Hin. unfold next_pk in Hin. lia.
Qed.

(** The instance [save] returns, the row it writes and the clock readings it
    takes, field by field. *)
Lemma save_full (clock : nat → datetime) (self : Document) (w : World) :
  ∃ self' w' k n,
    save clock self w = (Return self', w') ∧
    k = default (next_pk (objects w)) (id self) ∧
    n = (if active self && bool_decide (active_at self = None)
         then S (ticks w) else ticks w) ∧
    self' = mkDocument (Some k) (owner self) (title self) (content self)
              (active self)
              (if active self
               then Some (default (clock (ticks w)) (active_at self))
               else None)
              (if bool_decide (objects w !! k = None)
               then Some (clock n) else created_at self)
              (Some (clock n)) ∧
    w' = mkWorld (<[k := self']> (objects w)) (S n).
Proof.
  destruct self as [i o t c a at_ cr up].
  unfold save, mbind, M_bind. rewrite activation_eq.
  unfold Model_save, mbind, M_bind, timezone_now, table, write_row, mret, M_ret.
  destruct a; [destruct at_|]; simpl; eexists _, _, _, _;
    (split; [reflexivity|]); (split; [reflexivity|]); (split; [reflexivity|]);
    simpl; case_bool_decide; split; reflexivity.
Qed.

(** ** [save] and the tools together *)

(** X1: right after a save, [get_document] on the key of the saved document
    returns its [{id, title}] when it was saved active and the not-found
    dict when it was saved inactive. *)
Theorem save_then_get_document (clock : nat → datetime) (self : Document) (w : World) :
  ∃ self' w' k,
    save clock self w = (Return self', w') ∧
    id self' = Some k ∧
    get_document k w'
    = (Return (if active self
               then {[ "id" := VInt k; "title" := VStr (title self) ]}
               else {[ "error" := VStr "Document not found." ]}), w').
Proof.
  destruct (save_full clock self w) as (self' & w' & k & n & Hsave & _ & _ & Hself & Hw).
  assert (Hk : objects w' !! k = Some self').
  { rewrite Hw. simpl. by rewrite lookup_insert_eq. }
  assert (Hact : active self' = active self) by by rewrite Hself.
  assert (Htitle : title self' = title self) by by rewrite Hself.
  exists self', w', k. split; [done|]. split; [by rewrite Hself|].
  rewrite get_document_eq, Hk, Hact, entry_from_db, Htitle.
  by destruct (active self).
Qed.

(** X2: right after a save, [list_documents] has an entry with the key of the
    saved document exactly when it was saved active, and that entry carries
    its title. *)
Theorem save_then_list_documents (clock : nat → datetime) (self : Document) (w : World) :
  ∃ self' w' k l,
    save clock self w = (Return self', w') ∧
    id self' = Some k ∧
    list_documents w' = (Return l, w') ∧
    (∀ r : dict, r ∈ l → r !! "id" = Some (VInt k) →
       active self = true ∧
       r = {[ "id" := VInt k; "title" := VStr (title self) ]}) ∧
    (active self = true →
       ({[ "id" := VInt k; "title" := VStr (title self) ]} : dict) ∈ l).
Proof.
  destruct (save_full clock self w) as (self' & w' & k & n & Hsave & _ & _ & Hself & Hw).
  assert (Hk : objects w' !! k = Some self').
  { rewrite Hw. simpl. by rewrite lookup_insert_eq. }
  assert (Hact : active self' = active self) by by rewrite Hself.
  assert (Htitle : title self' = title self) by by rewrite Hself.
  eexists self', w', k, _. split; [done|]. split; [by rewrite Hself|].
  split; [apply list_documents_eq|].
  pose proof (elem_of_active_entries w') as Hmem. split.
  - intros r Hr Hid. apply Hmem in Hr as (k' & row & Hk' & Hact' & ->).
    rewrite lookup_insert_eq in Hid. injection Hid as ->.
    rewrite Hk in Hk'. injection Hk' as <-. by rewrite <- Hact, <- Htitle.
  - intros Htrue. apply Hmem. exists k, self'.
    by rewrite Hact, Htitle.
Qed.

(** X3: a save touches one key only: every other row of the table is as it
    was, [get_document] answers the same for every other key, and
    [list_documents] has the same entries for every other id. *)
Theorem save_frame (clock : nat → datetime) (self : Document) (w : World) :
  ∃ self' w' k l l',
    save clock self w = (Return self', w') ∧
    id self' = Some k ∧
    list_documents w = (Return l, w) ∧
    list_documents w' = (Return l', w') ∧
    (∀ j, j ≠ k →
       objects w' !! j = objects w !! j ∧
       (get_document j w').1 = (get_document j w).1) ∧
    (∀ r : dict, r !! "id" ≠ Some (VInt k) → (r ∈ l' ↔ r ∈ l)).
Proof.
  destruct (save_full clock self w) as (self' & w' & k & n & Hsave & _ & _ & Hself & Hw).
  assert (Hother : ∀ j, j ≠ k → objects w' !! j = objects w !! j).
  { intros j Hj. rewrite Hw. simpl. by rewrite lookup_insert_ne. }
  eexists self', w', k, _, _. split; [done|]. split; [by rewrite Hself|].
  split; [apply list_documents_eq|]. split; [apply list_documents_eq|]. split.
  - intros j Hj. split; [by apply Hother|].
    rewrite !get_document_eq. simpl. by rewrite Hother.
  - intros r Hid. rewrite !elem_of_active_entries.
    split; intros (j & row & Hj & Hact & ->);
      rewrite lookup_insert_eq in Hid;
      assert (j ≠ k) by congruence;
      exists j, row; [rewrite <- Hother by done|rewrite Hother by done]; done.
Qed.

(** X4: [save] changes no field other than the key and the three
    timestamps: owner, title, content and [active] are as given, so is
    [__str__], and a key that is set is kept. *)
Theorem save_keeps_fields (clock : nat → datetime) (self : Document) (w : World) :
  ∃ self' w',
    save clock self w = (Return self', w') ∧
    owner self' = owner self ∧
    title self' = title self ∧
    content self' = content self ∧
    active self' = active self ∧
    __str__ self' = __str__ self ∧
    (∀ k, id self = Some k → id self' = Some k).
Proof.
  destruct (save_full clock self w) as (self' & w' & k & n & Hsave & Hk & _ & Hself & _).
  exists self', w'. split; [done|]. rewrite Hself. unfold __str__. simpl.
  repeat split. intros j Hj. by rewrite Hk, Hj.
Qed.

(** ** The activation invariant on the store *)

(** The row a save writes satisfies the invariant, and the others are kept. *)
Lemma save_store_ok (clock : nat → datetime) (self self' : Document) (w w' : World) :
  save clock self w = (Return self', w') → store_ok w → store_ok w'.
Proof.
  intros Hsave Hok.
  destruct (save_full clock self w) as (s & w1 & k & n & Hsave' & _ & _ & Hself & Hw).
  rewrite Hsave in Hsave'. apply result_eq in Hsave' as [<- <-].
  unfold store_ok. rewrite Hw. simpl. apply map_Forall_insert_2; [|done].
  rewrite Hself. unfold activation_ok. simpl.
  destruct (active self); split; done.
Qed.

(** X5: a save keeps the activation invariant of the store: when every row
    has [active_at] set exactly when [active] is true, the same holds of
    every row after the save, for any document saved. *)
Theorem save_preserves_store_ok (clock : nat → datetime) (self : Document) (w : World) :
  store_ok w →
  ∃ self' w', save clock self w = (Return self', w') ∧ store_ok w'.
Proof.
  intros Hok.
  destruct (save_full clock self w) as (self' & w' & k & n & Hsave & _).
  exists self', w'. split; [done|]. by eapply save_store_ok.
Qed.

(** X6: in a store built from an empty table by saves alone, every row has
    [active_at] set exactly when [active] is true, and every row carries the
    key it is stored under as its [id]. *)
Theorem reachable_store_ok (clock : nat → datetime) (w : World) :
  reachable clock w →
  store_ok w ∧ ∀ k row, objects w !! k = Some row → id row = Some k.
Proof.
  induction 1 as [n|self self' w w' Hreach [IHok IHid] Hsave].
  - split; [apply map_Forall_empty|]. intros k row Hk. simpl in Hk.
    by rewrite lookup_empty in Hk.
  - split; [by eapply save_store_ok|].
    destruct (save_full clock self w) as (s & w1 & k & m & Hsave' & _ & _ & Hself & Hw).
    rewrite Hsave in Hsave'. apply result_eq in Hsave' as [<- <-].
    intros j row. rewrite Hw. simpl. rewrite lookup_insert_Some.
    intros [[<- <-]|[_ Hj]]; [by rewrite Hself|by apply IHid].
Qed.

(** X7: in a store that satisfies the activation invariant, [get_document]
    finds a document under a key exactly when the row under that key has an
    activation time. *)
Theorem get_document_iff_activation_time (w : World) (document_id : Z) :
  store_ok w →
  ∃ r : dict,
    get_document document_id w = (Return r, w) ∧
    (r !! "error" = None ↔
     ∃ row t, objects w !! document_id = Some row ∧ active_at row = Some t).
Proof.
  intros Hok. eexists. split; [apply get_document_eq|].
  destruct (objects w !! document_id) as [row|] eqn:Hk.
  - pose proof (map_Forall_lookup_1 _ _ _ _ Hok Hk) as [Hto Hfrom].
    destruct (active row) eqn:Hact.
    + rewrite entry_error. split; [|done]. intros _.
      destruct Hfrom as [t Ht]; [done|]. eauto.
    + rewrite not_found_error. split; [done|].
      intros (row' & t & Hrow' & Ht). injection Hrow' as <-.
      assert (false = true); [|done]. apply Hto. by exists t.
  - rewrite not_found_error. split; [done|]. by intros (row' & t & Hrow' & _).
Qed.

(** X8: deactivating a document and then activating it again records the
    time of the new activation: after saving it inactive, [active_at] is
    unset, and after saving it active again, [active_at] is the clock reading
    of that second save, under the same key. *)
Theorem reactivation_records_new_time (clock : nat → datetime) (self : Document) (w : World) :
  ∃ a w1 b w2,
    save clock (set_active self false) w = (Return a, w1) ∧
    active_at a = None ∧
    save clock (set_active a true) w1 = (Return b, w2) ∧
    active_at b = Some (clock (ticks w1)) ∧
    id b = id a.
Proof.
  destruct (save_full clock (set_active self false) w)
    as (a & w1 & k & n & Hsave & _ & _ & Ha & _).
  destruct (save_full clock (set_active a true) w1)
    as (b & w2 & k2 & n2 & Hsave2 & Hk2 & _ & Hb & _).
  exists a, w1, b, w2. split; [done|]. split; [by rewrite Ha|].
  split; [done|]. rewrite Hb, Hk2. simpl. by rewrite Ha.
Qed.

(** X9: with a clock that never runs backwards, a first activation stamps
    [active_at] no later than the [updated_at] of the same save, and, when
    the save inserts the row, no later than its [created_at]: the activation
    time is read before the row is written. *)
Theorem first_activation_precedes_write (clock : nat → datetime) (self : Document) (w : World) :
  monotone clock →
  active self = true →
  active_at self = None →
  ∃ self' w' k a u,
    save clock self w = (Return self', w') ∧
    id self' = Some k ∧
    active_at self' = Some a ∧
    updated_at self' = Some u ∧
    (a ≤ u)%Z ∧
    (objects w !! k = None → ∃ c, created_at self' = Some c ∧ (a ≤ c)%Z).
Proof.
  intros Hmono Hact Hat.
  destruct (save_full clock self w) as (self' & w' & k & n & Hsave & _ & Hn & Hself & _).
  rewrite Hact, Hat in Hn. simpl in Hn.
  assert (Hle : (clock (ticks w) ≤ clock n)%Z) by (apply Hmono; lia).
  exists self', w', k, (clock (ticks w)), (clock n).
  split; [done|]. rewrite Hself. simpl. rewrite Hact, Hat. simpl.
  repeat split; try done.
  intros Hnone. exists (clock n). by rewrite bool_decide_eq_true_2.
Qed.

(** ** The two tools against each other *)

(** X10: the two tools agree: a dict is an entry of [list_documents()]
    exactly when [get_document] returns it, without an [error] key, for some
    id. *)
Theorem list_documents_get_document_agree (w : World) :
  ∃ l : list dict,
    list_documents w = (Return l, w) ∧
    ∀ r : dict,
      r ∈ l ↔ ∃ k, get_document k w = (Return r, w) ∧ r !! "error" = None.
Proof.
  eexists. split; [apply list_documents_eq|].
  intros r. rewrite elem_of_active_entries. split.
  - intros (k & row & Hk & Hact & ->). exists k.
    rewrite get_document_eq, Hk, Hact, entry_from_db. split; [done|].
    by rewrite <- entry_from_db, entry_error.
  - intros (k & Hget & Herr). rewrite get_document_eq in Hget.
    apply result_eq in Hget as [<- _].
    destruct (objects w !! k) as [row|] eqn:Hk;
      [destruct (active row) eqn:Hact|].
    + exists k, row. by rewrite <- entry_from_db.
    + by rewrite not_found_error in Herr.
    + by rewrite not_found_error in Herr.
Qed.

(** The active instances of a table are as many as its active rows. *)
Lemma active_instances_length (t : gmap Z Document) :
  length (filter (λ o, active o = true) (instances t))
  = size (filter (λ kr : Z * Document, active kr.2 = true) t).
Proof.
  induction t as [|k row t Hk Hfirst IH] using map_first_key_ind.
  - by rewrite map_filter_empty, map_size_empty.
  - unfold instances in *. rewrite map_to_list_insert_first_key by done.
    rewrite fmap_cons, filter_cons. simpl.
    destruct (active row) eqn:Hact.
    + rewrite decide_True by done. simpl. rewrite IH.
      rewrite map_filter_insert_True by done.
      rewrite map_size_insert_None; [done|].
      apply map_lookup_filter_None. by left.
    + rewrite decide_False by (unfold from_db; simpl; congruence). rewrite IH.
      rewrite map_filter_insert_not'; [done|simpl; congruence|].
      intros y Hy. congruence.
Qed.

(** X11: [list_documents()] returns as many entries as the store holds
    active documents. *)
Theorem list_documents_length (w : World) :
  ∃ l : list dict,
    list_documents w = (Return l, w) ∧
    length l = size (filter (λ kr : Z * Document, active kr.2 = true) (objects w)).
Proof.
  eexists. split; [apply list_documents_eq|].
  by rewrite length_fmap, active_instances_length.
Qed.

(** X14: the loop of [list_documents] keeps the order of the queryset and
    drops or adds nothing: the result is as long as the queryset, and its
    i-th entry is the [{id, title}] of the i-th instance. *)
Theorem list_documents_in_queryset_order (w : World) :
  ∃ (qs : list Document) (l : list dict),
    objects_filter (λ o, active o = true) w = (Return qs, w) ∧
    list_documents w = (Return l, w) ∧
    length l = length qs ∧
    ∀ i : nat,
      l !! i
      = (λ obj, ({[ "id" := py_id obj; "title" := VStr (title obj) ]} : dict))
          <$> qs !! i.
Proof.
  eexists _, _. split; [reflexivity|]. split; [apply list_documents_eq|].
  split; [by rewrite length_fmap|]. intros i. by rewrite list_lookup_fmap.
Qed.

(** ** New documents and the automatic timestamps *)

(** X12: a document created with the model's defaults is active, so its
    first save stamps [active_at] with the current clock reading and
    [created_at] with a reading, stores it under a key that held no row,
    leaves every existing row as it was, and makes it found by
    [get_document] and listed by [list_documents]. *)
Theorem new_document_is_visible (clock : nat → datetime) (owner : Z) (title : string) (w : World) :
  ∃ self' w' k l,
    save clock (Document_init owner title) w = (Return self', w') ∧
    id self' = Some k ∧
    objects w !! k = None ∧
    (∀ j row, objects w !! j = Some row → objects w' !! j = Some row) ∧
    active_at self' = Some (clock (ticks w)) ∧
    is_Some (created_at self') ∧
    get_document k w'
    = (Return {[ "id" := VInt k; "title" := VStr title ]}, w') ∧
    list_documents w' = (Return l, w') ∧
    ({[ "id" := VInt k; "title" := VStr title ]} : dict) ∈ l.
Proof.
  destruct (save_full clock (Document_init owner title) w)
    as (self' & w' & k & n & Hsave & Hk & _ & Hself & Hw).
  simpl in Hk, Hself.
  assert (Hfresh : objects w !! k = None) by (rewrite Hk; apply next_pk_fresh).
  rewrite bool_decide_eq_true_2 in Hself by done.
  assert (Hrow : objects w' !! k = Some self').
  { rewrite Hw. simpl. by rewrite lookup_insert_eq. }
  eexists self', w', k, _. split; [done|]. split; [by rewrite Hself|].
  split; [done|]. split.
  { intros j row Hj. rewrite Hw. simpl. rewrite lookup_insert_ne; [done|].
    intros <-. congruence. }
  split; [by rewrite Hself|]. split; [by rewrite Hself|]. split.
  { rewrite get_document_eq, Hrow, Hself. done. }
  split; [apply list_documents_eq|].
  apply elem_of_active_entries. exists k, self'.
  split; [done|]. by rewrite Hself.
Qed.


(** ** The further statements at the sample data *)

Lemma report_world_ok : store_ok report_world.
Proof. apply (bool_decide_unpack (store_ok report_world)). vm_compute. exact I. Defined.

Lemma sample_clock_monotone : monotone sample_clock.
Proof. intros m n Hmn. unfold sample_clock. lia. Defined.

Lemma report_world_reachable : reachable sample_clock report_world.
Proof.
  apply (reachable_save sample_clock report stored_report empty_world).
  - apply reachable_empty.
  - vm_compute. reflexivity.
Defined.

Lemma save_preserves_store_ok_witness :
  store_ok report_world ∧
  ∃ self' w',
    save sample_clock draft report_world = (Return self', w') ∧ store_ok w'.
Proof.
  split; [exact report_world_ok|].
  apply (save_preserves_store_ok sample_clock draft report_world).
  exact report_world_ok.
Defined.

Lemma reachable_store_ok_witness :
  reachable sample_clock report_world ∧
  store_ok report_world ∧
  ∀ k row, objects report_world !! k = Some row → id row = Some k.
Proof.
  split; [exact report_world_reachable|].
  apply (reachable_store_ok sample_clock report_world).
  exact report_world_reachable.
Defined.

Lemma get_document_iff_activation_time_witness :
  store_ok report_world ∧
  ∃ r : dict,
    get_document 1 report_world = (Return r, report_world) ∧
    (r !! "error" = None ↔
     ∃ row t, objects report_world !! 1 = Some row ∧ active_at row = Some t).
Proof.
  split; [exact report_world_ok|].
  apply (get_document_iff_activation_time report_world 1).
  exact report_world_ok.
Defined.

Lemma first_activation_precedes_write_witness :
  monotone sample_clock ∧
  active report = true ∧
  active_at report = None ∧
  ∃ self' w' k a u,
    save sample_clock report empty_world = (Return self', w') ∧
    id self' = Some k ∧
    active_at self' = Some a ∧
    updated_at self' = Some u ∧
    (a ≤ u)%Z ∧
    (objects empty_world !! k = None →
     ∃ c, created_at self' = Some c ∧ (a ≤ c)%Z).
Proof.
  split; [exact sample_clock_monotone|].
  split; [reflexivity|]. split; [reflexivity|].
  apply (first_activation_precedes_write sample_clock report empty_world).
  - exact sample_clock_monotone.
  - reflexivity.
  - reflexivity.
Defined.

